(** * Incremental symbol cache of the NSE volume/delivery downloader

    A shallow embedding of [VolumeDeliveryData/fetch_vol_delivery_data.py]
    (class [NSEDataDownloader]), [VolumeDeliveryData/bulk_downloader.py]
    (class [BulkNSEDownloader]) and the request loop of
    [VolumeDeliveryData/utils.py], followed by the properties of the
    download, update and merge logic.

    Conventions of the embedding:
    - a [datetime] / pandas [Timestamp] is an integer number of seconds
      counted from midnight of proleptic-Gregorian ordinal 0, so that the
      ordinal of its calendar day is the quotient by 86400; a [date] is
      the ordinal itself;
    - a [DataFrame] is the list of its rows, in index order; only the
      [Date] column is interpreted, the other cells are carried along;
    - methods run in a state-and-exception monad over a [World] holding
      the CSV files of the base directory, the requests sent to the remote
      source, the log records and the update report; what the process
      cannot control (clock, remote source, disk errors, thread
      scheduling) is read from an environment [Env]. *)

From stdpp Require Import gmap strings list sorting.

#[local] Open Scope Z_scope.
#[local] Set Warnings "-clear-no-such-hyp,-level-tolerance".


(** ** Python's proleptic Gregorian calendar ([datetime] module) *)

Module Calendar.

(** [_days_before_year]: number of days before January 1st of [year]. *)
Definition _days_before_year (year : Z) : Z :=
  let y := year - 1 in
  y * 365 + y / 4 - y / 100 + y / 400.

Definition _is_leap (year : Z) : bool :=
  (year mod 4 =? 0) && (negb (year mod 100 =? 0) || (year mod 400 =? 0)).

(** [_DAYS_BEFORE_MONTH], indexed from 1. *)
Definition _DAYS_BEFORE_MONTH : list Z :=
  [0; 0; 31; 59; 90; 120; 151; 181; 212; 243; 273; 304; 334].

Definition _days_before_month (year month : Z) : Z :=
  nth (Z.to_nat month) _DAYS_BEFORE_MONTH 0
  + (if (2 <? month) && _is_leap year then 1 else 0).

(** [_ymd2ord]: ordinal of a calendar day, 0001-01-01 being day 1. *)
Definition _ymd2ord (year month day : Z) : Z :=
  _days_before_year year + _days_before_month year month + day.

(** The year component of [_ord2ymd]. *)
Definition _ord2year (n : Z) : Z :=
  let n := n - 1 in
  let n400 := n / 146097 in
  let n := n mod 146097 in
  let year := n400 * 400 + 1 in
  let n100 := n / 36524 in
  let n := n mod 36524 in
  let n4 := n / 1461 in
  let n := n mod 1461 in
  let n1 := n / 365 in
  let year := year + n100 * 100 + n4 * 4 + n1 in
  if (n1 =? 4) || (n100 =? 4) then year - 1 else year.

Definition SECONDS_PER_DAY : Z := 86400.

(** [datetime(year, month, day)]: midnight of that day. *)
Definition datetime (year month day : Z) : Z :=
  _ymd2ord year month day * SECONDS_PER_DAY.

(** [dt.date()], as an ordinal. *)
Definition toordinal (dt : Z) : Z := dt / SECONDS_PER_DAY.

(** [dt.year]. *)
Definition year_of (dt : Z) : Z := _ord2year (toordinal dt).

(** [timedelta(days=n)]. *)
Definition timedelta_days (n : Z) : Z := n * SECONDS_PER_DAY.

End Calendar.

Import Calendar.

(** ** Exceptions and results *)

(** A raised Python exception: its class name and [str(e)]. *)
Record exn := Exn { exn_class : string; str : string }.

Inductive result (A : Type) : Type :=
  | Ok (a : A)
  | Raise (e : exn).
Arguments Ok {A} a.
Arguments Raise {A} e.

(** ** Data frames *)

(** One row of a symbol's table: the trade date and the remaining cells
    (symbol, series, prices, quantities) as they stand in the CSV. *)
Record DailyRecord := mkRecord { Date : Z; Cells : list string }.

#[global] Instance DailyRecord_eq_dec : EqDecision DailyRecord.
Proof. solve_decision. Defined.

Definition DataFrame : Type := list DailyRecord.

(** [df.empty] *)
Definition empty_frame (df : DataFrame) : bool :=
  match df with [] => true | _ :: _ => false end.

(** A pandas timestamp scalar: [NaT] or a point in time. *)
Inductive Timestamp := NaT | Ts (t : Z).

(** [Series.max()] of a datetime column: [NaT] when there is no value. *)
Definition series_max (col : list Z) : Timestamp :=
  match col with
  | [] => NaT
  | t :: rest => Ts (fold_left Z.max rest t)
  end.

(** [df["Date"]] *)
Definition Date_column (df : DataFrame) : list Z := Date <$> df.

(** [drop_duplicates(subset=["Date"])]: with pandas' default
    [keep="first"], a row is dropped when an earlier row carries the same
    date.  [seen] is the set of dates met so far. *)
Fixpoint drop_duplicates_from (seen : gset Z) (df : DataFrame) : DataFrame :=
  match df with
  | [] => []
  | r :: rest =>
      if decide (Date r ∈ seen) then drop_duplicates_from seen rest
      else r :: drop_duplicates_from ({[Date r]} ∪ seen) rest
  end.

Definition drop_duplicates (df : DataFrame) : DataFrame :=
  drop_duplicates_from ∅ df.

(** [sort_values(by="Date")], ascending.  The insertion keeps rows of equal
    date in their original order; pandas' default quicksort gives no such
    guarantee, but on a frame without duplicate dates (all that
    [update_symbol_data] sorts) every sorting algorithm returns this same
    frame, see [sort_values_unique]. *)
Fixpoint insert_by_date (r : DailyRecord) (df : DataFrame) : DataFrame :=
  match df with
  | [] => [r]
  | x :: rest =>
      if decide (Date r ≤ Date x) then r :: x :: rest
      else x :: insert_by_date r rest
  end.

Definition sort_values (df : DataFrame) : DataFrame :=
  foldr insert_by_date [] df.

(** [pd.concat([a, b])] *)
Definition concat (a b : DataFrame) : DataFrame := a ++ b.

(** ** The world the scripts act on *)

(** What [pd.read_csv] followed by [pd.to_datetime(df["Date"])] finds in a
    cache file: a table, or an exception (malformed text, missing [Date]
    column, unparsable date). *)
Inductive csv_file :=
  | Table (rows : DataFrame)
  | Unreadable (e : exn).

(** A CSV file found under a symbol directory, as
    [_get_latest_date_in_csv] reads it: [pd.read_csv] or
    [pd.to_datetime(df["mTIMESTAMP"])] raises, or the frame is read, with
    [df.empty] and, when there is a [mTIMESTAMP] column, the time stamps
    parsed from its cells that are not null. *)
Inductive dir_csv :=
  | DirUnreadable (e : exn)
  | DirFrame (df_empty : bool) (mTIMESTAMP : option (list Z)).

Inductive level := INFO | WARNING | ERROR.

(** The records handed to [logger], one constructor per call site, with
    the values interpolated in the message. *)
Inductive message :=
  | UsingListingDate (listing_date : Z) (symbol : string)
  | UsingFallbackStartYear (symbol : string)
  | UsingCachedCompleteData (symbol : string)
  | UsingStartEnd (start_date end_date : Z) (symbol : string)
  | ErrorCheckingCompleteness (symbol e : string)
  | SavedRecords (n : nat) (symbol csv_path : string)
  | ErrorSavingCsv (symbol e : string)
  | LoadedRecords (n : nat) (symbol : string)
  | ErrorLoadingCsv (symbol e : string)
  | UpdatingFromTo (symbol : string) (start_date end_date : Z)
  | AlreadyUpToDate (symbol : string)
  | StartingUpdate (n : nat)
  | UpdatedWith (symbol : string) (new_records : nat)
  | FailedToUpdate (symbol e : string)
  | SymbolAlreadyUpToDate (symbol : string)
  | UnexpectedError (symbol e : string)
  | NoExistingData (symbol : string)
  | ErrorReading (csv_file e : string)
  | UpdateReportSaved (report_path : string)
  | DownloadedRecords (symbol : string) (n : nat)
  | NoDataFor (symbol : string)
  | FailedDownload (symbol e : string).

(** The text of [update_report.txt]: time stamp and the three sorted
    symbol lists (the counts are their lengths). *)
Record report := mkReport {
  report_time : Z;
  report_updated : list string;
  report_failed : list string;
  report_no_update : list string
}.

Record World := mkWorld {
  files : gmap string csv_file;
  requests : list (string * Z * Z);
  log : list (level * message);
  update_report : option report
}.

Definition set_files (f : gmap string csv_file) (w : World) : World :=
  mkWorld f (requests w) (log w) (update_report w).
Definition add_request (r : string * Z * Z) (w : World) : World :=
  mkWorld (files w) (requests w ++ [r]) (log w) (update_report w).
Definition add_log (l : level * message) (w : World) : World :=
  mkWorld (files w) (requests w) (log w ++ [l]) (update_report w).
Definition set_report (r : report) (w : World) : World :=
  mkWorld (files w) (requests w) (log w) (Some r).

(** What lies outside the program.  The clock is read once per run. *)
Record Env := mkEnv {
  (** [base_dir] of the downloader *)
  env_base_dir : string;
  (** [datetime.now()] *)
  env_now : Z;
  (** [utils.get_volume_deliverable_data(symbol, start, end)], the two
      dates being the days that the [dd-mm-YYYY] strings denote *)
  env_fetch : string → Z → Z → result DataFrame;
  (** [get_listing_date(symbol)]: the listing day, or [None] (the method
      catches every exception of the request) *)
  env_listing_date : string → option Z;
  (** the exception [DataFrame.to_csv] raises on a path, if any *)
  env_to_csv_error : string → option exn;
  (** [get_symbol_directory(symbol).glob("*.csv")] with the content of the
      files found.  [NSEDataDownloader] defines no method
      [get_symbol_directory]; see [no_symbol_directory] *)
  env_symbol_directory : string → result (list (string * dir_csv));
  (** the order in which [as_completed] yields the futures submitted for a
      list of symbols *)
  env_as_completed : list string → list string
}.

(** The attribute lookup as the class stands. *)
Definition no_symbol_directory (symbol : string)
  : result (list (string * dir_csv)) :=
  Raise (Exn "AttributeError"
    "'NSEDataDownloader' object has no attribute 'get_symbol_directory'").

(** ** State and exceptions *)

Definition M (A : Type) : Type := World → result A * World.

#[global] Instance M_ret : MRet M := λ A a w, (Ok a, w).

#[global] Instance M_bind : MBind M := λ A B k m w,
  match m w with
  | (Ok a, w') => k a w'
  | (Raise e, w') => (Raise e, w')
  end.

Definition raise {A} (e : exn) : M A := λ w, (Raise e, w).

(** [try: body except Exception as e: handler] *)
Definition try_except {A} (body : M A) (handler : exn → M A) : M A := λ w,
  match body w with
  | (Ok a, w') => (Ok a, w')
  | (Raise e, w') => handler e w'
  end.

Definition logger (lvl : level) (msg : message) : M unit :=
  λ w, (Ok tt, add_log (lvl, msg) w).

(** What [Timestamp.date()] returns: a [datetime.date], given by its
    ordinal, and [NaT] itself for [NaT]. *)
Inductive pydate := NaTDate | Day (d : Z).

Definition Timestamp_date (t : Timestamp) : pydate :=
  match t with
  | Ts t => Day (toordinal t)
  | NaT => NaTDate
  end.

(** pandas 2 refuses to order [NaT] against a [datetime.date]. *)
Definition NaT_date_error : exn :=
  Exn "TypeError" "Cannot compare NaT with datetime.date object".

(** [a > b] between two results of [.date()]; [NaT > NaT] is false. *)
Definition pydate_gt (a b : pydate) : M bool :=
  match a, b with
  | Day x, Day y => mret (bool_decide (y < x))
  | NaTDate, NaTDate => mret false
  | _, _ => raise NaT_date_error
  end.

(** [bool(df)], which [if data] evaluates. *)
Definition DataFrame_bool (df : DataFrame) : M bool :=
  raise (Exn "ValueError"
    "The truth value of a DataFrame is ambiguous. Use a.empty, a.bool(), a.item(), a.any() or a.all().").

(** ** [fetch_vol_delivery_data.py]: class [NSEDataDownloader] *)

(** What [update_symbol_data] returns: the fetched frame, or the empty
    list [[]] of its last line. *)
Inductive update_result :=
  | NewData (new_data : DataFrame)
  | EmptyList.

(** A positional argument of a method call. *)
Inductive pyarg :=
  | PyStr (s : string)
  | PyDatetime (dt : Z).

Module NSEDataDownloader.
Section Methods.
Context (env : Env).

(** [self.base_dir / f"{symbol}.csv"] *)
Definition get_csv_file_path (symbol : string) : string :=
  env_base_dir env +:+ "/" +:+ symbol +:+ ".csv".

(** [csv_path.exists()] *)
Definition path_exists (csv_path : string) : M bool :=
  λ w, (Ok (bool_decide (is_Some (files w !! csv_path))), w).

Definition read_csv (csv_path : string) : M DataFrame := λ w,
  match files w !! csv_path with
  | Some (Table rows) => (Ok rows, w)
  | Some (Unreadable e) => (Raise e, w)
  | None => (Raise (Exn "FileNotFoundError" csv_path), w)
  end.

(** [data.to_csv(csv_path, index=False)]: the file is replaced by the
    frame, or the write raises and the file is left as it was. *)
Definition to_csv (data : DataFrame) (csv_path : string) : M unit := λ w,
  match env_to_csv_error env csv_path with
  | Some e => (Raise e, w)
  | None => (Ok tt, set_files (<[csv_path := Table data]> (files w)) w)
  end.

(** The call into [utils]: the request is recorded, the answer is the
    remote source's. *)
Definition get_volume_deliverable_data
    (symbol : string) (start_date end_date : Z) : M DataFrame :=
  λ w, (env_fetch env symbol start_date end_date,
        add_request (symbol, start_date, end_date) w).

Definition get_listing_date (symbol : string) : M (option Z) :=
  mret (env_listing_date env symbol).

Definition save_to_csv (symbol : string) (data : DataFrame) : M bool :=
  if empty_frame data then mret false
  else
    let csv_path := get_csv_file_path symbol in
    try_except
      (to_csv data csv_path;;
       logger INFO (SavedRecords (length data) symbol csv_path);;
       mret true)
      (λ e, logger ERROR (ErrorSavingCsv symbol (str e));; mret false).

Definition load_from_csv (symbol : string) : M DataFrame :=
  let csv_path := get_csv_file_path symbol in
  ex ← path_exists csv_path;
  loaded ← (if ex : bool then
              try_except
                (df ← read_csv csv_path;
                 logger INFO (LoadedRecords (length df) symbol);;
                 mret (Some df))
                (λ e, logger ERROR (ErrorLoadingCsv symbol (str e));;
                      mret None)
            else mret None);
  match loaded with
  | Some df => mret df
  | None => mret []
  end.

Definition is_data_complete (symbol : string) : M bool :=
  let csv_path := get_csv_file_path symbol in
  ex ← path_exists csv_path;
  if negb ex then mret false
  else
    try_except
      (df ← read_csv csv_path;
       let latest_date := series_max (Date_column df) in
       match Timestamp_date latest_date with
       | Day d =>
           if decide (toordinal (env_now env) - 2 ≤ d) then mret true
           else mret false
       | NaTDate => raise NaT_date_error
       end)
      (λ e, logger WARNING (ErrorCheckingCompleteness symbol (str e));;
            mret false).

Definition download_symbol_data
    (symbol : string) (start_year end_year : option Z) : M DataFrame :=
  listing_date ← get_listing_date symbol;
  start_date_str ←
    match start_year with
    | None =>
        match listing_date with
        | Some d => logger INFO (UsingListingDate d symbol);; mret d
        | None =>
            logger WARNING (UsingFallbackStartYear symbol);;
            mret (_ymd2ord 2000 1 1)
        end
    | Some y => mret (_ymd2ord y 1 1)
    end;
  let end_date_str :=
    match end_year with
    | None => toordinal (env_now env)
    | Some y => _ymd2ord y 12 31
    end in
  complete ← is_data_complete symbol;
  if complete : bool then
    logger INFO (UsingCachedCompleteData symbol);;
    load_from_csv symbol
  else
    logger WARNING (UsingStartEnd start_date_str end_date_str symbol);;
    all_data ← get_volume_deliverable_data symbol start_date_str end_date_str;
    save_to_csv symbol all_data;;
    mret all_data.

(** Lines 183-186 of [update_symbol_data].  For an existing file without
    rows the latest date is [NaT]: [NaT.year < current_year] is false
    and [NaT + timedelta(days=1)] is [NaT]. *)
Definition update_start_date
    (current_year : Z) (latest_date_in_csv : option Timestamp) : Timestamp :=
  match latest_date_in_csv with
  | None => Ts (datetime current_year 1 1)
  | Some NaT => NaT
  | Some (Ts t) =>
      if decide (year_of t < current_year) then Ts (datetime current_year 1 1)
      else Ts (t + timedelta_days 1)
  end.

(** [pd.concat([existing_data, new_data]).drop_duplicates(subset=["Date"])
    .sort_values(by="Date")] *)
Definition merge (existing_data new_data : DataFrame) : DataFrame :=
  sort_values (drop_duplicates (concat existing_data new_data)).

(** Lines 198-204 of [update_symbol_data]: load, merge, save. *)
Definition merge_and_persist (symbol : string) (new_data : DataFrame)
  : M bool :=
  existing_data ← load_from_csv symbol;
  let all_data := merge existing_data new_data in
  save_to_csv symbol all_data.

Definition update_symbol_data (symbol : string) : M update_result :=
  let current_year := year_of (env_now env) in
  let csv_path := get_csv_file_path symbol in
  ex ← path_exists csv_path;
  latest_date_in_csv ←
    (if ex : bool then
       df ← read_csv csv_path;
       mret (Some (series_max (Date_column df)))
     else mret None);
  let start_date := update_start_date current_year latest_date_in_csv in
  let end_date := env_now env - timedelta_days 1 in
  returned ←
    match start_date with
    | Ts start =>
        if decide (start ≤ end_date) then
          logger INFO
            (UpdatingFromTo symbol (toordinal start) (toordinal end_date));;
          new_data ← get_volume_deliverable_data
                       symbol (toordinal start) (toordinal end_date);
          if negb (empty_frame new_data) then
            merge_and_persist symbol new_data;;
            mret (Some new_data)
          else mret None
        else mret None
    | NaT => mret None
    end;
  match returned with
  | Some new_data => mret (NewData new_data)
  | None => logger INFO (AlreadyUpToDate symbol);; mret EmptyList
  end.

(** A call of [self.downloader.update_symbol_data] with positional
    arguments [args]: the method is
    declared [update_symbol_data(self, symbol)], so it binds exactly one
    positional argument besides [self]. *)
Definition call_update_symbol_data (args : list pyarg) : M update_result :=
  match args with
  | [PyStr symbol] => update_symbol_data symbol
  | _ =>
      raise (Exn "TypeError"
        "NSEDataDownloader.update_symbol_data() takes 2 positional arguments but 4 were given")
  end.

End Methods.
End NSEDataDownloader.

(** ** [bulk_downloader.py]: class [BulkNSEDownloader] *)

(** The dictionary [{"updated": .., "new_records": .., "error": ..}]. *)
Record outcome := mkOutcome {
  updated : bool;
  new_records : nat;
  error : option string
}.

(** Truth value of [result["error"]]: [None] and the empty string are
    false. *)
Definition truthy (v : option string) : bool :=
  match v with
  | None => false
  | Some s => negb (String.eqb s "")
  end.

(** [sorted(symbols)] on strings. *)
Fixpoint insert_sorted (s : string) (l : list string) : list string :=
  match l with
  | [] => [s]
  | x :: rest =>
      if String.ltb s x then s :: x :: rest else x :: insert_sorted s rest
  end.

Definition sorted (l : list string) : list string :=
  foldr insert_sorted [] l.

(** The three lists that [update_all_symbols] fills:
    [updated_symbols], [failed_symbols], [no_update_needed]. *)
Definition symbol_lists : Type := list string * list string * list string.

Module BulkNSEDownloader.
Section Methods.
Context (env : Env).

(** Body of the [try] of lines 150-157, for one file. *)
Definition read_latest (content : dir_csv) (latest_date : option pydate)
  : M (option pydate) :=
  match content with
  | DirUnreadable e => raise e
  | DirFrame df_empty (Some stamps) =>
      if negb df_empty then
        let file_latest_date := Timestamp_date (series_max stamps) in
        match latest_date with
        | None => mret (Some file_latest_date)
        | Some l =>
            later ← pydate_gt file_latest_date l;
            if later : bool then mret (Some file_latest_date)
            else mret latest_date
        end
      else mret latest_date
  | DirFrame _ None => mret latest_date
  end.

(** The [for csv_file in csv_files] loop of lines 149-160. *)
Fixpoint latest_date_loop
    (csv_files : list (string * dir_csv)) (latest_date : option pydate)
  : M (option pydate) :=
  match csv_files with
  | [] => mret latest_date
  | (csv_file, content) :: rest =>
      latest_date ←
        try_except
          (read_latest content latest_date)
          (λ e, logger WARNING (ErrorReading csv_file (str e));;
                mret latest_date);
      latest_date_loop rest latest_date
  end.

Definition _get_latest_date_in_csv (symbol : string) : M (option pydate) :=
  csv_files ← (λ w, (env_symbol_directory env symbol, w));
  match csv_files with
  | [] => mret None
  | _ :: _ => latest_date_loop csv_files None
  end.

(** Falling off the end of the function returns [None]. *)
Definition _update_single_symbol (symbol : string) : M (option outcome) :=
  try_except
    (latest_date ← _get_latest_date_in_csv symbol;
     let current_date := toordinal (env_now env) in
     match latest_date with
     | None =>
         logger INFO (NoExistingData symbol);;
         data ← NSEDataDownloader.download_symbol_data env symbol None None;
         nonempty ← DataFrame_bool data;
         mret (Some (mkOutcome true
                       (if nonempty : bool then length data else 0%nat)
                       None))
     | Some NaTDate =>
         (* line 114: [latest_date >= ...] on [NaT] *)
         raise NaT_date_error
     | Some (Day latest_date) =>
         if decide (current_date - 1 ≤ latest_date) then
           mret (Some (mkOutcome false 0 None))
         else
           let start_date := latest_date + 1 in
           let end_date := current_date - 1 in
           if decide (end_date < start_date) then
             mret (Some (mkOutcome false 0 None))
           else
             logger INFO (UpdatingFromTo symbol start_date end_date);;
             NSEDataDownloader.call_update_symbol_data env
               [PyStr symbol;
                PyDatetime (start_date * SECONDS_PER_DAY);
                PyDatetime (end_date * SECONDS_PER_DAY)];;
             mret None
     end)
    (λ e, mret (Some (mkOutcome false 0 (Some (str e))))).

(** [_generate_update_report]: the report file is rewritten. *)
Definition _generate_update_report (updated failed no_update : list string)
  : M unit :=
  let report_path := env_base_dir env +:+ "/update_report.txt" in
  (λ w, (Ok tt,
         set_report (mkReport (env_now env) (sorted updated)
                       (sorted failed) (sorted no_update)) w));;
  logger INFO (UpdateReportSaved report_path).

(** A submitted task run to completion: the future keeps the value
    returned or the exception raised. *)
Definition run_future {A} (task : M A) : M (result A) :=
  λ w, let '(r, w') := task w in (Ok r, w').

(** [future.result()] *)
Definition future_result {A} (future : result A) : M A :=
  match future with
  | Ok a => mret a
  | Raise e => raise e
  end.

(** [result[key]] on what the task returned. *)
Definition subscript (result : option outcome) : M outcome :=
  match result with
  | Some d => mret d
  | None =>
      raise (Exn "TypeError" "'NoneType' object is not subscriptable")
  end.

(** Body of the [for future in as_completed(..)] loop, lines 64-84.
    Nothing raises after an [append], so the lists are those of the
    branch taken. *)
Definition collect (symbol : string) (future : result (option outcome))
    (lists : symbol_lists) : M symbol_lists :=
  let '(updated_symbols, failed_symbols, no_update_needed) := lists in
  try_except
    (result ← future_result future;
     d ← subscript result;
     if updated d then
       logger INFO (UpdatedWith symbol (new_records d));;
       mret (updated_symbols ++ [symbol], failed_symbols, no_update_needed)
     else if truthy (error d) then
       logger ERROR (FailedToUpdate symbol (default "" (error d)));;
       mret (updated_symbols, failed_symbols ++ [symbol], no_update_needed)
     else
       logger INFO (SymbolAlreadyUpToDate symbol);;
       mret (updated_symbols, failed_symbols, no_update_needed ++ [symbol]))
    (λ e, logger ERROR (UnexpectedError symbol (str e));;
          mret (updated_symbols, failed_symbols ++ [symbol],
                no_update_needed)).

(** The futures in the order [as_completed] yields them; each task is
    run as a whole before its future is collected. *)
Fixpoint as_completed_loop (completed : list string) (lists : symbol_lists)
  : M symbol_lists :=
  match completed with
  | [] => mret lists
  | symbol :: rest =>
      future ← run_future (_update_single_symbol symbol);
      lists ← collect symbol future lists;
      as_completed_loop rest lists
  end.





(** [symbols=None] asks for [self.get_nifty_500_symbols()], which the
    class does not define.  [max_workers] only bears on the scheduling,
    which is [env_as_completed]; the [time.sleep(2)] between two futures
    has no effect on the state. *)
Definition update_all_symbols (symbols : option (list string))
  : M symbol_lists :=
  symbols ←
    match symbols with
    | Some l => mret l
    | None =>
        raise (Exn "AttributeError"
          "'BulkNSEDownloader' object has no attribute 'get_nifty_500_symbols'")
    end;
  logger INFO (StartingUpdate (length symbols));;
  lists ← as_completed_loop (env_as_completed env symbols) ([], [], []);
  let '(updated_symbols, failed_symbols, no_update_needed) := lists in
  _generate_update_report updated_symbols failed_symbols no_update_needed;;
  mret (updated_symbols, failed_symbols, no_update_needed).

End Methods.
End BulkNSEDownloader.

(** ** [utils.py]: the yearly requests of
       [price_volume_and_deliverable_position_data] *)

Module Utils.



End Utils.

(** * Properties *)

(** ** Dropping duplicate dates *)

Definition date_le (a b : DailyRecord) : Prop := Date a ≤ Date b.
Definition date_lt (a b : DailyRecord) : Prop := Date a < Date b.

(** The dates of a frame, as a set. *)
Definition date_set (df : DataFrame) : gset Z := list_to_set (Date_column df).

(** The first row of [df] dated [d], which is the one [keep="first"]
    retains. *)
Definition first_dated (d : Z) (df : DataFrame) : option DailyRecord :=
  find (λ x, Date x =? d) df.

(** The rows that [load_from_csv] hands back for a symbol: those of its
    table, and none when the file is missing or unreadable. *)
Definition cached_rows (env : Env) (symbol : string) (w : World) : DataFrame :=
  match files w !! NSEDataDownloader.get_csv_file_path env symbol with
  | Some (Table rows) => rows
  | _ => []
  end.

(** Whether [save_to_csv] writes the frame: it is not empty and [to_csv]
    does not raise. *)
Definition written (env : Env) (symbol : string) (data : DataFrame) : bool :=
  negb (empty_frame data) &&
  bool_decide (env_to_csv_error env
                 (NSEDataDownloader.get_csv_file_path env symbol) = None).

(** The latest date that [update_symbol_data] reads from the symbol's
    table: none without a table, [NaT] for a table without rows. *)
Definition latest_in_csv (env : Env) (symbol : string) (w : World)
  : option Timestamp :=
  match files w !! NSEDataDownloader.get_csv_file_path env symbol with
  | Some (Table rows) => Some (series_max (Date_column rows))
  | _ => None
  end.

(** The symbol's file, if there is one, can be read. *)
Definition readable (env : Env) (symbol : string) (w : World) : Prop :=
  ∀ e, files w !! NSEDataDownloader.get_csv_file_path env symbol
       ≠ Some (Unreadable e).

(** The days [update_symbol_data] asks the remote source for, given the
    latest cached date; [None] when it asks for nothing. *)
Definition update_range (env : Env) (latest : option Timestamp)
  : option (Z * Z) :=
  let end_date := env_now env - timedelta_days 1 in
  match NSEDataDownloader.update_start_date (year_of (env_now env)) latest with
  | Ts start =>
      if decide (start ≤ end_date) then
        Some (toordinal start, toordinal end_date)
      else None
  | NaT => None
  end.

(** The day a file of a symbol directory contributes to the latest date:
    that of its largest time stamp, when the file is read, is not empty
    and has the column. *)
Definition file_latest (content : dir_csv) : option Z :=
  match content with
  | DirFrame false (Some (t :: rest)) =>
      Some (toordinal (fold_left Z.max rest t))
  | _ => None
  end.

(** The message of the exception with which a file of a symbol directory
    fails to be read, if it does. *)
Definition file_error (content : dir_csv) : option string :=
  match content with
  | DirUnreadable e => Some (str e)
  | _ => None
  end.

(** A frame with rows whose [mTIMESTAMP] column holds null cells only:
    [max()] of the column is [NaT]. *)
Definition blank (content : dir_csv) : bool :=
  match content with
  | DirFrame false (Some []) => true
  | _ => false
  end.

Definition later (latest : option Z) (content : dir_csv) : option Z :=
  match file_latest content, latest with
  | Some d, Some l => Some (Z.max l d)
  | Some d, None => Some d
  | None, _ => latest
  end.

(** The maximum of [file_latest] over the files, [None] when no file
    contributes. *)
Definition latest_readable (csv_files : list (string * dir_csv)) (start : option Z)
  : option Z :=
  fold_left (λ latest f, later latest f.2) csv_files start.

(** The warnings logged for the files that cannot be read. *)
Definition read_warnings (csv_files : list (string * dir_csv))
  : list (level * message) :=
  omap (λ f, (λ e, (WARNING, ErrorReading f.1 e)) <$> file_error f.2) csv_files.

Definition add_logs (l : list (level * message)) (w : World) : World :=
  mkWorld (files w) (requests w) (log w ++ l) (update_report w).

(** The list a completed future sends its symbol to. *)
Inductive verdict := IsUpdated | IsFailed | IsUpToDate.

Definition verdict_of (future : result (option outcome)) : verdict :=
  match future with
  | Ok (Some d) =>
      if updated d then IsUpdated
      else if truthy (error d) then IsFailed
      else IsUpToDate
  | Ok None => IsFailed
  | Raise _ => IsFailed
  end.

Definition add_symbol (v : verdict) (symbol : string) (lists : symbol_lists)
  : symbol_lists :=
  let '(updated_symbols, failed_symbols, no_update_needed) := lists in
  match v with
  | IsUpdated => (updated_symbols ++ [symbol], failed_symbols, no_update_needed)
  | IsFailed => (updated_symbols, failed_symbols ++ [symbol], no_update_needed)
  | IsUpToDate => (updated_symbols, failed_symbols, no_update_needed ++ [symbol])
  end.

(** [str(e)] of the [AttributeError] of [no_symbol_directory]. *)
Definition missing_method_message : string :=
  "'NSEDataDownloader' object has no attribute 'get_symbol_directory'".

(** The environment of the class as it stands: the directory lookup of
    [_get_latest_date_in_csv] raises for every symbol. *)
Definition class_as_it_stands (env : Env) : Prop :=
  ∀ symbol, env_symbol_directory env symbol = no_symbol_directory symbol.







(** Concrete data: symbol ABC in January 2024. *)
Module Scenario.

Definition day (d : Z) : Z := _ymd2ord 2024 1 d.

Definition row (d : Z) (v : string) : DailyRecord :=
  mkRecord (datetime 2024 1 d) [v].

(** The source answers every request with one row for 2024-01-06. *)
Definition fetch_0106 (symbol : string) (start_date end_date : Z)
  : result DataFrame := Ok [row 6 "new"].

(** The source answers with rows for 2024-01-02 and 2024-01-03. *)
Definition fetch_overlap (symbol : string) (start_date end_date : Z)
  : result DataFrame := Ok [row 2 "refetched"; row 3 "c"].

(** A symbol directory with one file, stamped 2024-01-01..05. *)
Definition dir_0105 (symbol : string) : result (list (string * dir_csv)) :=
  Ok [("nse_data/ABC/2024.csv",
       DirFrame false (Some [datetime 2024 1 1; datetime 2024 1 2;
                             datetime 2024 1 3; datetime 2024 1 4;
                             datetime 2024 1 5]))].

(** The source fails with an exception whose message is empty, as
    [MemoryError()] has. *)
Definition fetch_memory_error (symbol : string) (start_date end_date : Z)
  : result DataFrame := Raise (Exn "MemoryError" "").

(** ABC has no file in its directory; the other symbols have one,
    stamped up to 2024-01-07. *)
Definition dir_mixed (symbol : string) : result (list (string * dir_csv)) :=
  if String.eqb symbol "ABC" then Ok []
  else Ok [("nse_data/" +:+ symbol +:+ "/2024.csv",
            DirFrame false (Some [datetime 2024 1 5; datetime 2024 1 7]))].

(** January [d], 2024, ten in the morning; nothing fails on disk; the
    futures complete in the order of submission. *)
Definition env_on (d : Z) (fetch : string → Z → Z → result DataFrame)
    (dir : string → result (list (string * dir_csv))) : Env :=
  mkEnv "nse_data" (datetime 2024 1 d + 36000) fetch (λ _, None) (λ _, None)
    dir (λ symbols, symbols).

Definition env_of := env_on 8.

Definition world_of (rows : DataFrame) : World :=
  mkWorld {[ "nse_data/ABC.csv" := Table rows ]} [] [] None.

Definition no_cache : World := mkWorld ∅ [] [] None.

Definition cache_0105 : World :=
  world_of [row 1 "a"; row 2 "b"; row 3 "c"; row 4 "d"; row 5 "e"].

Definition cache_0102 : World := world_of [row 1 "a"; row 2 "b"].

(** A table whose last row is dated 2023-12-20. *)
Definition cache_2023 : World :=
  world_of [mkRecord (datetime 2023 12 19) ["y"];
            mkRecord (datetime 2023 12 20) ["z"]].

(** A symbol directory whose only file has rows and a [mTIMESTAMP]
    column of null cells. *)
Definition dir_blank (symbol : string) : result (list (string * dir_csv)) :=
  Ok [("nse_data/ABC/2024.csv", DirFrame false (Some []))].

(** A symbol directory without CSV files. *)
Definition dir_empty (symbol : string) : result (list (string * dir_csv)) :=
  Ok [].

(** A symbol directory with an unreadable file and a readable one. *)
Definition dir_corrupt (symbol : string) : result (list (string * dir_csv)) :=
  Ok [("nse_data/ABC/2023.csv",
       DirUnreadable (Exn "ParserError" "Error tokenizing data"));
      ("nse_data/ABC/2024.csv",
       DirFrame false (Some [datetime 2024 1 3; datetime 2024 1 5]))].

(** As [env_of], for a symbol listed on 2010-05-03. *)
Definition env_listed (fetch : string → Z → Z → result DataFrame)
    (dir : string → result (list (string * dir_csv))) : Env :=
  mkEnv "nse_data" (datetime 2024 1 8 + 36000) fetch
    (λ _, Some (_ymd2ord 2010 5 3)) (λ _, None) dir (λ symbols, symbols).





End Scenario.

Ltac munfold :=
  unfold mbind, M_bind, mret, M_ret, try_except, raise, logger in *.

Lemma elem_of_date_set (d : Z) (df : DataFrame) :
  d ∈ date_set df ↔ ∃ r, r ∈ df ∧ Date r = d.
Proof.
  unfold date_set, Date_column. rewrite elem_of_list_to_set, list_elem_of_fmap.
  naive_solver.
Qed.

Lemma elem_of_drop_duplicates_from (seen : gset Z) (df : DataFrame) r :
  r ∈ drop_duplicates_from seen df ↔
  Date r ∉ seen ∧ first_dated (Date r) df = Some r.
Proof.
  revert seen. induction df as [|x rest IH]; intros seen; simpl.
  - rewrite elem_of_nil. naive_solver.
  - destruct (decide (Date x ∈ seen)) as [Hin|Hout].
    + rewrite IH. destruct (Z.eqb_spec (Date x) (Date r)) as [E|E].
      * rewrite <- E. naive_solver.
      * reflexivity.
    + rewrite elem_of_cons, IH.
      destruct (Z.eqb_spec (Date x) (Date r)) as [E|E].
      * split.
        -- intros [->|[Hn _]]; [done|]. set_solver.
        -- intros [_ [= ->]]. by left.
      * split.
        -- intros [->|[Hn Hf]]; [done|]. split; [set_solver|done].
        -- intros [Hn Hf]. right. split; [set_solver|done].
Qed.

Lemma first_dated_elem d df r :
  first_dated d df = Some r → r ∈ df ∧ Date r = d.
Proof.
  unfold first_dated. intros H. apply find_some in H as [Hin Heq].
  split; [by apply list_elem_of_In | lia].
Qed.

Lemma first_dated_is_Some d df :
  d ∈ date_set df → is_Some (first_dated d df).
Proof.
  rewrite elem_of_date_set. intros (r & Hin & Hd).
  destruct (first_dated d df) eqn:E; [eauto|].
  unfold first_dated in E.
  apply list_elem_of_In in Hin. apply (find_none _ _ E) in Hin. lia.
Qed.

Lemma first_dated_app d a b :
  first_dated d (a ++ b) =
  match first_dated d a with Some r => Some r | None => first_dated d b end.
Proof.
  unfold first_dated. induction a as [|x a IH]; simpl; [done|].
  by destruct (Date x =? d).
Qed.

Lemma date_set_drop_duplicates_from seen df :
  date_set (drop_duplicates_from seen df) = date_set df ∖ seen.
Proof.
  apply set_eq. intros d. rewrite elem_of_difference, !elem_of_date_set. split.
  - intros (r & Hin & <-). apply elem_of_drop_duplicates_from in Hin as [Hn Hf].
    apply first_dated_elem in Hf as [Hin _]. eauto.
  - intros [(r & Hin & <-) Hn].
    destruct (first_dated_is_Some (Date r) df) as [r' Hr'].
    { apply elem_of_date_set. eauto. }
    pose proof (first_dated_elem _ _ _ Hr') as [_ Hd].
    exists r'. split; [|done].
    apply elem_of_drop_duplicates_from. by rewrite Hd.
Qed.

Lemma NoDup_drop_duplicates_from seen df :
  NoDup (Date_column (drop_duplicates_from seen df)).
Proof.
  revert seen. induction df as [|x rest IH]; intros seen; simpl.
  - constructor.
  - destruct (decide (Date x ∈ seen)); [apply IH|].
    unfold Date_column. simpl. constructor; [|apply IH].
    intros Hin.
    assert (Date x ∈ date_set (drop_duplicates_from ({[Date x]} ∪ seen) rest))
      as Hs by (unfold date_set; by apply elem_of_list_to_set).
    rewrite date_set_drop_duplicates_from in Hs. set_solver.
Qed.

Lemma drop_duplicates_from_app seen a b :
  drop_duplicates_from seen (a ++ b) =
  drop_duplicates_from seen a ++ drop_duplicates_from (date_set a ∪ seen) b.
Proof.
  revert seen. induction a as [|x a IH]; intros seen; simpl.
  - f_equal. unfold date_set. simpl. set_solver.
  - assert (∀ s : gset Z, date_set (x :: a) ∪ s = date_set a ∪ ({[Date x]} ∪ s))
      as Hs by (intros s; unfold date_set; simpl; set_solver).
    destruct (decide (Date x ∈ seen)).
    + rewrite IH. do 2 f_equal. unfold date_set. simpl. set_solver.
    + simpl. rewrite IH. by rewrite Hs.
Qed.

Lemma drop_duplicates_from_seen seen df :
  date_set df ⊆ seen → drop_duplicates_from seen df = [].
Proof.
  induction df as [|x rest IH]; simpl; [done|]. intros Hsub.
  assert (Date x ∈ seen) by (apply Hsub; unfold date_set; simpl; set_solver).
  rewrite decide_True by done. apply IH.
  intros d Hd. apply Hsub. unfold date_set in *. simpl. set_solver.
Qed.

Lemma drop_duplicates_from_NoDup seen df :
  NoDup (Date_column df) → date_set df ## seen →
  drop_duplicates_from seen df = df.
Proof.
  revert seen. induction df as [|x rest IH]; intros seen Hnd Hdisj; simpl; [done|].
  unfold Date_column in Hnd. simpl in Hnd. apply NoDup_cons in Hnd as [Hx Hnd].
  assert (Date x ∉ seen).
  { intros Hin. apply (Hdisj (Date x)); [|done]. unfold date_set. simpl. set_solver. }
  rewrite decide_False by done. f_equal. apply IH; [done|].
  intros d Hd Hin. apply elem_of_union in Hin as [Hin|Hin].
  - apply elem_of_singleton in Hin as ->. apply Hx.
    unfold date_set in Hd. by apply elem_of_list_to_set in Hd.
  - apply (Hdisj d); [|done]. unfold date_set in *. simpl. set_solver.
Qed.

(** ** Sorting by date *)

#[local] Instance date_le_trans : Transitive date_le.
Proof. unfold date_le. intros a b c. lia. Qed.

#[local] Instance date_lt_trans : Transitive date_lt.
Proof. unfold date_lt. intros a b c. lia. Qed.

Lemma insert_by_date_Permutation r df : insert_by_date r df ≡ₚ r :: df.
Proof.
  induction df as [|x rest IH]; simpl; [done|].
  destruct (decide (Date r ≤ Date x)); [done|].
  rewrite IH. apply Permutation_swap.
Qed.

Lemma sort_values_Permutation df : sort_values df ≡ₚ df.
Proof.
  induction df as [|x rest IH]; simpl; [done|].
  by rewrite insert_by_date_Permutation, IH.
Qed.

Lemma insert_by_date_sorted r df :
  StronglySorted date_le df → StronglySorted date_le (insert_by_date r df).
Proof.
  induction 1 as [|x rest Hs IH Hall]; simpl.
  - repeat constructor.
  - destruct (decide (Date r ≤ Date x)) as [Hle|Hgt].
    + constructor; [by constructor|].
      constructor; [done|].
      eapply Forall_impl; [exact Hall|]. unfold date_le. intros; simpl in *; lia.
    + constructor; [done|].
      rewrite insert_by_date_Permutation. constructor; [|done].
      unfold date_le. lia.
Qed.

Lemma sort_values_sorted df : StronglySorted date_le (sort_values df).
Proof.
  induction df as [|x rest IH]; simpl; [constructor|].
  by apply insert_by_date_sorted.
Qed.

Lemma sort_values_id df : StronglySorted date_le df → sort_values df = df.
Proof.
  induction 1 as [|x rest Hs IH Hall]; simpl; [done|].
  rewrite IH. destruct rest as [|y rest']; simpl; [done|].
  apply Forall_cons in Hall as [Hxy _].
  by rewrite decide_True.
Qed.

Lemma sorted_strict df :
  StronglySorted date_le df → NoDup (Date_column df) →
  StronglySorted date_lt df.
Proof.
  induction 1 as [|x rest Hs IH Hall]; intros Hnd; [constructor|].
  unfold Date_column in Hnd. simpl in Hnd. apply NoDup_cons in Hnd as [Hx Hnd].
  constructor; [by apply IH|].
  rewrite Forall_forall in Hall |- *. intros y Hy.
  specialize (Hall y Hy). unfold date_le, date_lt in *.
  assert (Date x ≠ Date y); [|lia].
  intros E. apply Hx. rewrite E. by apply list_elem_of_fmap_2.
Qed.


(** ** The merged frame *)

Lemma merge_Permutation existing new :
  NSEDataDownloader.merge existing new ≡ₚ drop_duplicates (existing ++ new).
Proof. apply sort_values_Permutation. Qed.

Lemma merge_NoDup existing new :
  NoDup (Date_column (NSEDataDownloader.merge existing new)).
Proof.
  unfold Date_column. rewrite merge_Permutation.
  apply NoDup_drop_duplicates_from.
Qed.

Lemma merge_sorted existing new :
  StronglySorted date_lt (NSEDataDownloader.merge existing new).
Proof.
  apply sorted_strict; [apply sort_values_sorted | apply merge_NoDup].
Qed.

Lemma elem_of_merge existing new r :
  r ∈ NSEDataDownloader.merge existing new ↔
  first_dated (Date r) (existing ++ new) = Some r.
Proof.
  rewrite merge_Permutation. unfold drop_duplicates.
  rewrite elem_of_drop_duplicates_from. set_solver.
Qed.

Lemma date_set_Permutation a b : a ≡ₚ b → date_set a = date_set b.
Proof.
  intros H. apply set_eq. intros d. rewrite !elem_of_date_set.
  by setoid_rewrite H.
Qed.

Lemma date_set_merge existing new :
  date_set (NSEDataDownloader.merge existing new) =
  date_set existing ∪ date_set new.
Proof.
  rewrite (date_set_Permutation _ _ (merge_Permutation existing new)).
  unfold drop_duplicates. rewrite date_set_drop_duplicates_from.
  unfold date_set, Date_column. rewrite fmap_app. set_solver.
Qed.

Lemma merge_idem existing new :
  NSEDataDownloader.merge (NSEDataDownloader.merge existing new) new =
  NSEDataDownloader.merge existing new.
Proof.
  set (m := NSEDataDownloader.merge existing new).
  unfold NSEDataDownloader.merge at 1. unfold concat, drop_duplicates.
  rewrite drop_duplicates_from_app.
  rewrite (drop_duplicates_from_seen _ new).
  - rewrite app_nil_r, drop_duplicates_from_NoDup.
    + apply sort_values_id, sort_values_sorted.
    + apply merge_NoDup.
    + set_solver.
  - unfold m. rewrite date_set_merge. set_solver.
Qed.

(** ** Effects of the downloader's methods *)

Lemma cached_rows_ext env symbol w w' :
  files w = files w' → cached_rows env symbol w = cached_rows env symbol w'.
Proof. unfold cached_rows. by intros ->. Qed.

Lemma load_from_csv_spec env symbol w :
  ∃ w', NSEDataDownloader.load_from_csv env symbol w
          = (Ok (cached_rows env symbol w), w') ∧
        files w' = files w ∧ requests w' = requests w.
Proof.
  unfold NSEDataDownloader.load_from_csv, cached_rows,
    NSEDataDownloader.path_exists, NSEDataDownloader.read_csv.
  munfold. cbn zeta.
  destruct (files w !! _) as [[rows|e]|] eqn:E; simpl; rewrite ?E; simpl;
    eauto 10.
Qed.

Lemma save_to_csv_spec env symbol data w :
  ∃ w', NSEDataDownloader.save_to_csv env symbol data w
          = (Ok (written env symbol data), w') ∧
        files w' =
          (if written env symbol data
           then <[NSEDataDownloader.get_csv_file_path env symbol := Table data]>
                  (files w)
           else files w) ∧
        requests w' = requests w.
Proof.
  unfold NSEDataDownloader.save_to_csv, written, NSEDataDownloader.to_csv.
  destruct data as [|r data]; simpl; [eauto 10|].
  munfold. cbn zeta.
  destruct (env_to_csv_error env _) as [e|] eqn:E; simpl; eauto 10.
Qed.

Lemma merge_and_persist_spec env symbol new w :
  let all_data := NSEDataDownloader.merge (cached_rows env symbol w) new in
  ∃ w', NSEDataDownloader.merge_and_persist env symbol new w
          = (Ok (written env symbol all_data), w') ∧
        files w' =
          (if written env symbol all_data
           then <[NSEDataDownloader.get_csv_file_path env symbol
                    := Table all_data]> (files w)
           else files w) ∧
        requests w' = requests w.
Proof.
  intros all_data. unfold NSEDataDownloader.merge_and_persist.
  destruct (load_from_csv_spec env symbol w) as (w0 & Hload & Hf0 & Hr0).
  destruct (save_to_csv_spec env symbol all_data w0) as (w1 & Hsave & Hf1 & Hr1).
  exists w1. unfold mbind, M_bind. rewrite Hload. cbn zeta. fold all_data.
  rewrite Hsave, Hf1, Hr1, Hf0, Hr0. done.
Qed.

Lemma merge_nil_iff existing new :
  NSEDataDownloader.merge existing new = [] ↔ existing = [] ∧ new = [].
Proof.
  split.
  - intros H.
    assert (date_set existing ∪ date_set new = ∅) as Hs.
    { rewrite <- date_set_merge, H. done. }
    unfold date_set, Date_column in Hs.
    destruct existing as [|x ?]; [|simpl in Hs; set_solver].
    destruct new as [|x ?]; [done|simpl in Hs; set_solver].
  - by intros [-> ->].
Qed.

(** ** Saving and merging *)

(** C9. [save_to_csv] called with an empty frame returns [False] and
    leaves the world, the symbol's table included, exactly as it was; the
    files change only for a non-empty frame; and a non-empty frame replaces
    the symbol's table whenever [to_csv] does not raise. *)
Theorem save_to_csv_empty_no_write env symbol w :
  NSEDataDownloader.save_to_csv env symbol [] w = (Ok false, w) ∧
  (∀ data,
     files (NSEDataDownloader.save_to_csv env symbol data w).2 ≠ files w →
     data ≠ []) ∧
  (∀ data,
     data ≠ [] →
     env_to_csv_error env (NSEDataDownloader.get_csv_file_path env symbol)
       = None →
     ∃ w', NSEDataDownloader.save_to_csv env symbol data w = (Ok true, w') ∧
           files w' =
             <[NSEDataDownloader.get_csv_file_path env symbol := Table data]>
               (files w)).
Proof.
  split; [reflexivity|]. split.
  - intros data Hne ->. by apply Hne.
  - intros data Hne Herr.
    destruct (save_to_csv_spec env symbol data w) as (w' & Hs & Hf & _).
    assert (written env symbol data = true) as Hw.
    { unfold written. rewrite Herr. by destruct data. }
    rewrite Hw in Hs, Hf. eauto.
Qed.

Lemma save_to_csv_empty_no_write_witness :
  let env := Scenario.env_of Scenario.fetch_0106 Scenario.dir_0105 in
  NSEDataDownloader.save_to_csv env "ABC" [] Scenario.cache_0102
    = (Ok false, Scenario.cache_0102) ∧
  [Scenario.row 3 "c"] ≠ [] ∧
  ∃ w', NSEDataDownloader.save_to_csv env "ABC" [Scenario.row 3 "c"]
          Scenario.cache_0102 = (Ok true, w') ∧
        files w' = <["nse_data/ABC.csv" := Table [Scenario.row 3 "c"]]>
                     (files Scenario.cache_0102).
Proof.
  intros env.
  destruct (save_to_csv_empty_no_write env "ABC" Scenario.cache_0102)
    as (H1 & H2 & H3).
  split; [exact H1|]. split.
  - apply H2. intros Heq.
    apply (f_equal (λ m : gmap string csv_file, m !! "nse_data/ABC.csv")) in Heq.
    vm_compute in Heq. discriminate.
  - apply H3; [discriminate | reflexivity].
Defined.

(** C1, as the code has it.  [merge_and_persist] concatenates the cached
    rows and the fetched ones and keeps, for each trade date, the FIRST row
    of the concatenation: the cached row wins over a fetched row of the
    same date.  The result is strictly ascending by date, and it replaces
    the symbol's table when something was fetched and [to_csv] does not
    raise.  Merging a cache {D1, D2} with a fetch {D2', D3} gives exactly
    the three rows D1, D2, D3 in this order, the D2 row being the cached
    one. *)
Theorem merge_and_persist_keeps_first env symbol new w :
  let existing := cached_rows env symbol w in
  let all_data := NSEDataDownloader.merge existing new in
  StronglySorted date_lt all_data ∧
  (∀ r, r ∈ all_data ↔ first_dated (Date r) (existing ++ new) = Some r) ∧
  (∀ e n, first_dated (Date n) existing = Some e → n ∈ new →
          e ∈ all_data ∧ (n ∈ all_data → n = e)) ∧
  (new ≠ [] →
   env_to_csv_error env (NSEDataDownloader.get_csv_file_path env symbol)
     = None →
   ∃ w', NSEDataDownloader.merge_and_persist env symbol new w = (Ok true, w') ∧
         files w' =
           <[NSEDataDownloader.get_csv_file_path env symbol := Table all_data]>
             (files w) ∧
         requests w' = requests w) ∧
  (∀ r1 r2 r2' r3,
     Date r1 < Date r2 → Date r2' = Date r2 → Date r2 < Date r3 →
     NSEDataDownloader.merge [r1; r2] [r2'; r3] = [r1; r2; r3]).
Proof.
  intros existing all_data.
  split; [apply merge_sorted|].
  split; [intros r; apply elem_of_merge|].
  split; [|split].
  - intros e n He Hn.
    assert (first_dated (Date n) (existing ++ new) = Some e) as Hfirst
      by (rewrite first_dated_app; by rewrite He).
    pose proof (first_dated_elem _ _ _ He) as [_ Hd].
    split.
    + apply elem_of_merge. by rewrite Hd.
    + intros Hin. apply elem_of_merge in Hin. congruence.
  - intros Hne Herr.
    destruct (merge_and_persist_spec env symbol new w) as (w' & Hm & Hf & Hr).
    fold existing in Hm, Hf. fold all_data in Hm, Hf.
    assert (written env symbol all_data = true) as Hw.
    { unfold written. rewrite Herr.
      destruct all_data eqn:E; [|done].
      apply merge_nil_iff in E as [_ ?]. done. }
    rewrite Hw in Hm, Hf. eauto.
  - intros r1 r2 r2' r3 H12 H22 H23.
    unfold NSEDataDownloader.merge, concat, drop_duplicates. simpl.
    rewrite decide_False by set_solver.
    rewrite decide_False by (rewrite elem_of_union, elem_of_singleton; set_solver by lia).
    rewrite decide_True by (rewrite H22; set_solver).
    rewrite decide_False
      by (rewrite !elem_of_union, !elem_of_singleton; set_solver by lia).
    apply sort_values_id.
    repeat constructor; unfold date_le; lia.
Qed.

Lemma merge_and_persist_keeps_first_witness :
  let env := Scenario.env_of Scenario.fetch_overlap Scenario.dir_0105 in
  let new := [Scenario.row 2 "refetched"; Scenario.row 3 "c"] in
  (∃ w', NSEDataDownloader.merge_and_persist env "ABC" new Scenario.cache_0102
           = (Ok true, w') ∧
         files w' =
           <["nse_data/ABC.csv" :=
               Table (NSEDataDownloader.merge
                        (cached_rows env "ABC" Scenario.cache_0102) new)]>
             (files Scenario.cache_0102) ∧
         requests w' = requests Scenario.cache_0102) ∧
  NSEDataDownloader.merge [Scenario.row 1 "a"; Scenario.row 2 "b"] new
    = [Scenario.row 1 "a"; Scenario.row 2 "b"; Scenario.row 3 "c"] ∧
  Scenario.row 2 "b" ∈
    NSEDataDownloader.merge (cached_rows env "ABC" Scenario.cache_0102) new.
Proof.
  intros env new.
  destruct (merge_and_persist_keeps_first env "ABC" new Scenario.cache_0102)
    as (_ & _ & H3 & H4 & H5).
  split; [apply H4; [discriminate | reflexivity]|].
  split.
  - apply H5; vm_compute; done.
  - apply (H3 (Scenario.row 2 "b") (Scenario.row 2 "refetched")).
    + reflexivity.
    + apply list_elem_of_In. left. reflexivity.
Defined.

(** C1 as stated fails: with the cache {01-01, 01-02} and the fetch
    {01-02 refetched, 01-03}, the table written keeps the cached row of
    01-02, not the fetched one. *)
Lemma merge_and_persist_new_row_dropped :
  let env := Scenario.env_of Scenario.fetch_overlap Scenario.dir_0105 in
  let new := [Scenario.row 2 "refetched"; Scenario.row 3 "c"] in
  let w' := (NSEDataDownloader.merge_and_persist env "ABC" new
               Scenario.cache_0102).2 in
  files w' !! "nse_data/ABC.csv"
    = Some (Table [Scenario.row 1 "a"; Scenario.row 2 "b"; Scenario.row 3 "c"]) ∧
  ¬ (files w' !! "nse_data/ABC.csv"
       = Some (Table [Scenario.row 1 "a"; Scenario.row 2 "refetched";
                      Scenario.row 3 "c"])).
Proof.
  intros env new w'.
  assert (files w' !! "nse_data/ABC.csv"
    = Some (Table [Scenario.row 1 "a"; Scenario.row 2 "b"; Scenario.row 3 "c"]))
    as H by (vm_compute; reflexivity).
  split; [exact H|]. rewrite H. intros [=].
Qed.

(** C8. Merging the same fetch result a second time into the table left by
    the first merge leaves the files as they are; on the frames, merging
    [new] into the merge of [existing] and [new] gives that merge again. *)
Theorem merge_and_persist_idempotent env symbol new w :
  let existing := cached_rows env symbol w in
  let w1 := (NSEDataDownloader.merge_and_persist env symbol new w).2 in
  let w2 := (NSEDataDownloader.merge_and_persist env symbol new w1).2 in
  files w2 = files w1 ∧
  cached_rows env symbol w2 = cached_rows env symbol w1 ∧
  NSEDataDownloader.merge (NSEDataDownloader.merge existing new) new
    = NSEDataDownloader.merge existing new.
Proof.
  intros existing w1 w2.
  assert (files w2 = files w1) as Hfiles.
  { subst w1 w2.
    destruct (merge_and_persist_spec env symbol new w) as (w1 & -> & Hf1 & _).
    simpl in *. fold existing in Hf1.
    destruct (merge_and_persist_spec env symbol new w1) as (w2 & -> & Hf2 & _).
    simpl in *. rewrite Hf2.
    destruct (written env symbol (NSEDataDownloader.merge existing new)) eqn:Hw.
    - assert (cached_rows env symbol w1 = NSEDataDownloader.merge existing new)
        as -> by (unfold cached_rows; rewrite Hf1; by rewrite lookup_insert_eq).
      rewrite merge_idem, Hw, Hf1. by rewrite insert_insert_eq.
    - rewrite (cached_rows_ext env symbol w1 w) by done.
      fold existing. by rewrite Hw. }
  split; [done|]. split; [by apply cached_rows_ext|]. apply merge_idem.
Qed.

(** ** The range asked of the remote source *)

Lemma toordinal_datetime y m d : toordinal (datetime y m d) = _ymd2ord y m d.
Proof. unfold toordinal, datetime, SECONDS_PER_DAY. by rewrite Z.div_mul. Qed.

Opaque NSEDataDownloader.update_start_date toordinal year_of datetime
  timedelta_days _ymd2ord.

Lemma update_symbol_data_requests env symbol w :
  readable env symbol w →
  requests (NSEDataDownloader.update_symbol_data env symbol w).2 =
  requests w ++
    match update_range env (latest_in_csv env symbol w) with
    | Some (s, e) => [(symbol, s, e)]
    | None => []
    end.
Proof.
  intros Hread.
  unfold NSEDataDownloader.update_symbol_data, update_range, latest_in_csv,
    NSEDataDownloader.path_exists, NSEDataDownloader.read_csv,
    NSEDataDownloader.get_volume_deliverable_data.
  munfold. cbn zeta.
  destruct (files w !! _) as [[rows|e]|] eqn:E; simpl; rewrite ?E; simpl.
  2: { by destruct (Hread e). }
  all: destruct (NSEDataDownloader.update_start_date _ _) as [|start]; simpl;
    [by rewrite app_nil_r|].
  all: case_decide; simpl; [|by rewrite app_nil_r].
  all: destruct (env_fetch env symbol _ _) as [new_data|e]; simpl; [|done].
  all: destruct new_data as [|r new_data]; simpl; [done|].
  all: match goal with
       | |- context [NSEDataDownloader.merge_and_persist ?a ?b ?c ?d] =>
           destruct (merge_and_persist_spec a b c d) as (w' & -> & _ & Hr)
       end.
  all: simpl; by rewrite Hr.
Qed.

Lemma is_data_complete_no_file env symbol w :
  files w !! NSEDataDownloader.get_csv_file_path env symbol = None →
  NSEDataDownloader.is_data_complete env symbol w = (Ok false, w).
Proof.
  intros E. unfold NSEDataDownloader.is_data_complete,
    NSEDataDownloader.path_exists.
  munfold. cbn zeta. by rewrite E.
Qed.

Lemma download_symbol_data_no_file env symbol w :
  files w !! NSEDataDownloader.get_csv_file_path env symbol = None →
  let start_date := default (_ymd2ord 2000 1 1) (env_listing_date env symbol) in
  let today := toordinal (env_now env) in
  let r := NSEDataDownloader.download_symbol_data env symbol None None w in
  requests r.2 = requests w ++ [(symbol, start_date, today)] ∧
  match r.1 with
  | Ok data => env_fetch env symbol start_date today = Ok data
  | Raise e => env_fetch env symbol start_date today = Raise e
  end.
Proof.
  intros E start_date today r. subst r start_date today.
  unfold NSEDataDownloader.download_symbol_data,
    NSEDataDownloader.get_listing_date,
    NSEDataDownloader.get_volume_deliverable_data.
  munfold. cbn zeta.
  destruct (env_listing_date env symbol) as [d|]; simpl.
  all: rewrite is_data_complete_no_file by done; simpl.
  all: destruct (env_fetch env symbol _ _) as [data|e] eqn:F; simpl; [|done].
  all: match goal with
       | |- context [NSEDataDownloader.save_to_csv ?a ?b ?c ?d] =>
           destruct (save_to_csv_spec a b c d) as (w' & -> & _ & Hr)
       end.
  all: simpl; by rewrite Hr.
Qed.

Transparent NSEDataDownloader.update_start_date toordinal year_of datetime
  timedelta_days _ymd2ord.

(** C10. When the symbol has no table, or when the latest date of its
    table lies in a year before the current one, [update_symbol_data]
    starts at January 1st of the current year: the one request it sends,
    if yesterday is not before that day, runs from January 1st of the
    current year to yesterday, whatever the cached latest date, so no
    day of an earlier year is asked for. *)
Theorem update_symbol_data_restarts_at_new_year env symbol w :
  let current_year := year_of (env_now env) in
  let end_date := env_now env - timedelta_days 1 in
  let csv_path := NSEDataDownloader.get_csv_file_path env symbol in
  (files w !! csv_path = None ∨
   ∃ rows t, files w !! csv_path = Some (Table rows) ∧
             series_max (Date_column rows) = Ts t ∧
             year_of t < current_year) →
  NSEDataDownloader.update_start_date current_year (latest_in_csv env symbol w)
    = Ts (datetime current_year 1 1) ∧
  requests (NSEDataDownloader.update_symbol_data env symbol w).2 =
    requests w ++
      (if decide (datetime current_year 1 1 ≤ end_date)
       then [(symbol, _ymd2ord current_year 1 1, toordinal end_date)]
       else []).
Proof.
  intros current_year end_date csv_path Hcache.
  assert (readable env symbol w) as Hread.
  { intros e He. fold csv_path in He.
    destruct Hcache as [Hn|(rows & t & Hs & _)]; congruence. }
  assert (NSEDataDownloader.update_start_date current_year
            (latest_in_csv env symbol w) = Ts (datetime current_year 1 1))
    as Hstart.
  { unfold latest_in_csv. fold csv_path.
    destruct Hcache as [->|(rows & t & -> & -> & Hy)]; simpl; [done|].
    by rewrite decide_True. }
  split; [done|].
  rewrite update_symbol_data_requests by done.
  unfold update_range. fold current_year end_date. rewrite Hstart.
  destruct (decide _); [|done]. by rewrite toordinal_datetime.
Qed.

Lemma update_symbol_data_restarts_at_new_year_witness :
  let env := Scenario.env_of Scenario.fetch_0106 Scenario.dir_0105 in
  NSEDataDownloader.update_start_date (year_of (env_now env))
    (latest_in_csv env "ABC" Scenario.cache_2023)
    = Ts (datetime 2024 1 1) ∧
  requests (NSEDataDownloader.update_symbol_data env "ABC"
              Scenario.cache_2023).2
    = [("ABC", Scenario.day 1, Scenario.day 7)].
Proof.
  intros env.
  apply (update_symbol_data_restarts_at_new_year env "ABC" Scenario.cache_2023).
  right. exists [mkRecord (datetime 2023 12 19) ["y"];
                 mkRecord (datetime 2023 12 20) ["z"]], (datetime 2023 12 20).
  split; [reflexivity|]. split; [reflexivity|]. vm_compute. reflexivity.
Defined.

(** ** Reading the symbol directory *)

Lemma add_logs_nil w : add_logs [] w = w.
Proof. destruct w. unfold add_logs. simpl. by rewrite app_nil_r. Qed.

Lemma add_logs_cons x l w : add_logs l (add_log x w) = add_logs (x :: l) w.
Proof. unfold add_logs, add_log. simpl. by rewrite <- app_assoc. Qed.

(** Reading one file changes nothing in the world. *)
Lemma read_latest_world content latest w :
  (BulkNSEDownloader.read_latest content latest w).2 = w.
Proof.
  unfold BulkNSEDownloader.read_latest, pydate_gt. munfold.
  destruct content as [e|[] [stamps|]]; simpl; try done.
  destruct latest as [l|]; simpl; [|done].
  destruct (Timestamp_date (series_max stamps)), l; simpl; try done.
  by case_bool_decide.
Qed.

(** Whatever the files, the loop ends without raising and only the log
    grows. *)
Lemma latest_date_loop_frame csv_files latest w :
  ∃ r w', BulkNSEDownloader.latest_date_loop csv_files latest w = (Ok r, w') ∧
          files w' = files w ∧ requests w' = requests w.
Proof.
  revert latest w. induction csv_files as [|[csv_file content] rest IH];
    intros latest w.
  - simpl. by exists latest, w.
  - simpl. unfold mbind at 1, M_bind at 1, try_except.
    pose proof (read_latest_world content latest w) as Hw.
    destruct (BulkNSEDownloader.read_latest content latest w) as [[r|e] w1];
      simpl in Hw; subst w1.
    + apply IH.
    + munfold. simpl.
      destruct (IH latest (add_log (WARNING, ErrorReading csv_file (str e)) w))
        as (r & w' & -> & Hf & Hr).
      by exists r, w'.
Qed.

Lemma get_latest_date_in_csv_frame env symbol w :
  files (BulkNSEDownloader._get_latest_date_in_csv env symbol w).2 = files w ∧
  requests (BulkNSEDownloader._get_latest_date_in_csv env symbol w).2
    = requests w.
Proof.
  unfold BulkNSEDownloader._get_latest_date_in_csv. munfold.
  destruct (env_symbol_directory env symbol) as [[|f rest]|e]; [done| |done].
  destruct (latest_date_loop_frame (f :: rest) None w) as (r & w' & -> & ? & ?).
  done.
Qed.

(** When no file has a blank time stamp column, the loop computes the
    latest day over the files that can be read and warns about each of
    the others. *)
Lemma latest_date_loop_spec csv_files latest w :
  Forall (λ f, blank f.2 = false) csv_files →
  BulkNSEDownloader.latest_date_loop csv_files (Day <$> latest) w =
  (Ok (Day <$> latest_readable csv_files latest),
   add_logs (read_warnings csv_files) w).
Proof.
  intros Hclean. revert latest w.
  induction Hclean as [|[csv_file content] rest Hc _ IH]; intros latest w.
  - simpl. by rewrite add_logs_nil.
  - unfold latest_readable, read_warnings. simpl.
    fold (latest_readable rest (later latest content)).
    fold (read_warnings rest).
    unfold BulkNSEDownloader.read_latest, pydate_gt. munfold.
    destruct content as [e|[] [[|t stamps]|]]; simpl in *;
      try (rewrite IH, ?add_logs_cons; done); try done.
    unfold later, file_latest.
    destruct latest as [l|]; simpl; [|by rewrite <- IH].
    case_bool_decide; simpl; rewrite <- IH;
      [rewrite Z.max_r by lia | rewrite Z.max_l by lia]; done.
Qed.

Lemma get_latest_date_in_csv_spec env symbol csv_files w :
  env_symbol_directory env symbol = Ok csv_files →
  Forall (λ f, blank f.2 = false) csv_files →
  BulkNSEDownloader._get_latest_date_in_csv env symbol w =
  (Ok (Day <$> latest_readable csv_files None),
   add_logs (read_warnings csv_files) w).
Proof.
  intros Hdir Hclean.
  unfold BulkNSEDownloader._get_latest_date_in_csv. munfold. rewrite Hdir.
  destruct csv_files as [|f rest].
  - simpl. by rewrite add_logs_nil.
  - apply (latest_date_loop_spec (f :: rest) None w Hclean).
Qed.

Lemma latest_readable_spec csv_files start :
  match latest_readable csv_files start with
  | None => start = None ∧ ∀ f, f ∈ csv_files → file_latest f.2 = None
  | Some d =>
      (start = Some d ∨ ∃ f, f ∈ csv_files ∧ file_latest f.2 = Some d) ∧
      (∀ l, start = Some l → l ≤ d) ∧
      (∀ f d', f ∈ csv_files → file_latest f.2 = Some d' → d' ≤ d)
  end.
Proof.
  revert start. induction csv_files as [|f rest IH]; intros start.
  - unfold latest_readable. simpl. destruct start as [l|].
    + split; [by left|]. split; [intros ? [= ->]; lia|].
      intros ? ? Hin. by apply elem_of_nil in Hin.
    + split; [done|]. intros ? Hin. by apply elem_of_nil in Hin.
  - unfold latest_readable. simpl. fold (latest_readable rest (later start f.2)).
    specialize (IH (later start f.2)).
    destruct (latest_readable rest (later start f.2)) as [d|].
    + destruct IH as (Hex & Hlow & Hup). unfold later in *.
      destruct (file_latest f.2) as [df|] eqn:Ef.
      * assert (df ≤ d ∧ ∀ l, start = Some l → l ≤ d) as [Hdf Hl].
        { destruct start as [l|].
          - specialize (Hlow _ eq_refl). split; [lia|]. intros ? [= <-]. lia.
          - specialize (Hlow _ eq_refl). split; [lia|]. done. }
        split; [|split; [done|]].
        -- destruct Hex as [Hs|(g & Hg & Hgd)].
           ++ destruct start as [l|]; simplify_eq.
              ** destruct (decide (l ≤ df)).
                 --- right. exists f. split; [by left|]. rewrite Ef. f_equal. lia.
                 --- left. f_equal. lia.
              ** right. exists f. split; [by left|]. done.
           ++ right. exists g. split; [by right|done].
        -- intros g d' Hg Hgd. apply elem_of_cons in Hg as [->|Hg].
           ++ rewrite Ef in Hgd. simplify_eq. done.
           ++ by eapply Hup.
      * split; [|split; [done|]].
        -- destruct Hex as [Hs|(g & Hg & Hgd)]; [by left|].
           right. exists g. split; [by right|done].
        -- intros g d' Hg Hgd. apply elem_of_cons in Hg as [->|Hg].
           ++ congruence.
           ++ by eapply Hup.
    + destruct IH as [Hs Hnone]. unfold later in Hs.
      destruct (file_latest f.2) as [df|] eqn:Ef.
      * destruct start; done.
      * split; [done|]. intros g Hg. apply elem_of_cons in Hg as [->|Hg]; auto.
Qed.


Lemma update_single_symbol_up_to_date env symbol w latest w1 :
  BulkNSEDownloader._get_latest_date_in_csv env symbol w
    = (Ok (Some (Day latest)), w1) →
  toordinal (env_now env) - 1 ≤ latest →
  BulkNSEDownloader._update_single_symbol env symbol w
    = (Ok (Some (mkOutcome false 0 None)), w1).
Proof.
  intros Hl Hle. unfold BulkNSEDownloader._update_single_symbol. munfold.
  rewrite Hl. cbn zeta. by rewrite decide_True.
Qed.

Lemma update_single_symbol_not_updated env symbol w :
  ∃ o, (BulkNSEDownloader._update_single_symbol env symbol w).1 = Ok (Some o) ∧
       updated o = false.
Proof.
  unfold BulkNSEDownloader._update_single_symbol,
    NSEDataDownloader.call_update_symbol_data, DataFrame_bool.
  munfold. cbn zeta.
  destruct (BulkNSEDownloader._get_latest_date_in_csv env symbol w)
    as [[[[|latest]|]|e] w1]; simpl; eauto.
  - repeat case_decide; simpl; eauto.
  - destruct (NSEDataDownloader.download_symbol_data _ _ _ _ _) as [[data|e] w2];
      simpl; eauto.
Qed.

(** ** The batch *)

Lemma collect_spec symbol future lists w :
  ∃ w', BulkNSEDownloader.collect symbol future lists w
          = (Ok (add_symbol (verdict_of future) symbol lists), w') ∧
        files w' = files w ∧ requests w' = requests w ∧
        update_report w' = update_report w.
Proof.
  destruct lists as [[u f] n].
  unfold BulkNSEDownloader.collect, BulkNSEDownloader.future_result,
    BulkNSEDownloader.subscript, verdict_of.
  munfold.
  destruct future as [[d|]|e]; simpl; eauto 10.
  destruct (updated d); simpl; eauto 10.
  destruct (truthy (error d)); simpl; eauto 10.
Qed.

Lemma as_completed_loop_spec env completed lists w :
  ∃ pu pf pn w',
    BulkNSEDownloader.as_completed_loop env completed lists w
      = (Ok (lists.1.1 ++ pu, lists.1.2 ++ pf, lists.2 ++ pn), w') ∧
    pu ++ pf ++ pn ≡ₚ completed.
Proof.
  revert lists w. induction completed as [|symbol rest IH]; intros lists w.
  - exists [], [], [], w. destruct lists as [[u f] n]. simpl.
    by rewrite !app_nil_r.
  - simpl. unfold mbind at 1, M_bind at 1. unfold BulkNSEDownloader.run_future.
    destruct (BulkNSEDownloader._update_single_symbol env symbol w)
      as [future w1].
    unfold mbind at 1, M_bind at 1.
    destruct (collect_spec symbol future lists w1) as (w2 & -> & _).
    destruct (IH (add_symbol (verdict_of future) symbol lists) w2)
      as (pu & pf & pn & w3 & -> & Hperm).
    destruct lists as [[u f] n].
    destruct (verdict_of future); simpl.
    + exists (symbol :: pu), pf, pn, w3.
      rewrite <- (app_assoc u). split; [done|]. simpl. by rewrite Hperm.
    + exists pu, (symbol :: pf), pn, w3.
      rewrite <- (app_assoc f). split; [done|].
      rewrite <- Hperm. symmetry. apply Permutation_middle.
    + exists pu, pf, (symbol :: pn), w3.
      rewrite <- (app_assoc n). split; [done|].
      rewrite <- Hperm, !app_assoc. symmetry. apply Permutation_middle.
Qed.

Lemma update_all_symbols_spec env symbols w :
  ∃ u f n w',
    BulkNSEDownloader.update_all_symbols env (Some symbols) w
      = (Ok (u, f, n), w') ∧
    u ++ f ++ n ≡ₚ env_as_completed env symbols ∧
    update_report w' =
      Some (mkReport (env_now env) (sorted u) (sorted f) (sorted n)).
Proof.
  unfold BulkNSEDownloader.update_all_symbols.
  unfold mbind at 1, M_bind at 1, mret at 1, M_ret at 1.
  unfold mbind at 1, M_bind at 1, logger at 1.
  unfold mbind at 1, M_bind at 1.
  match goal with
  | |- context [BulkNSEDownloader.as_completed_loop ?a ?b ?c ?d] =>
      destruct (as_completed_loop_spec a b c d)
        as (u & f & n & w1 & -> & Hperm)
  end.
  simpl in *. exists u, f, n.
  unfold BulkNSEDownloader._generate_update_report. munfold. simpl.
  eauto.
Qed.

(** Given the files of the symbol's directory, none of which has a blank
    time stamp column, [_get_latest_date_in_csv] returns the latest day
    over the files that can be read, [None] when no file contributes a
    day, and a file that cannot be read is skipped with a warning that
    carries the exception's message. *)
Lemma get_latest_date_in_csv_skips_unreadable env symbol csv_files w :
  env_symbol_directory env symbol = Ok csv_files →
  Forall (λ f, blank f.2 = false) csv_files →
  let latest := latest_readable csv_files None in
  BulkNSEDownloader._get_latest_date_in_csv env symbol w
    = (Ok (Day <$> latest), add_logs (read_warnings csv_files) w) ∧
  (∀ f e, f ∈ csv_files → file_error f.2 = Some e →
          (WARNING, ErrorReading f.1 e) ∈ read_warnings csv_files) ∧
  (latest = None ↔ ∀ f, f ∈ csv_files → file_latest f.2 = None) ∧
  (∀ d, latest = Some d →
        (∃ f, f ∈ csv_files ∧ file_latest f.2 = Some d) ∧
        (∀ f d', f ∈ csv_files → file_latest f.2 = Some d' → d' ≤ d)).
Proof.
  intros Hdir Hclean latest.
  split; [by apply get_latest_date_in_csv_spec|].
  split.
  { intros f e Hf He. unfold read_warnings. apply list_elem_of_omap.
    exists f. split; [done|]. by rewrite He. }
  pose proof (latest_readable_spec csv_files None) as Hspec. fold latest in Hspec.
  destruct latest as [d|].
  - destruct Hspec as ([?|Hex] & _ & Hup); [done|]. split.
    + split; [done|]. intros Hnone. destruct Hex as (f & Hf & Hd).
      rewrite (Hnone f Hf) in Hd. done.
    + intros ? [= <-]. eauto.
  - destruct Hspec as [_ Hnone]. split; [done|]. intros ? [=].
Qed.

Example get_latest_date_in_csv_corrupt_file :
  let env := Scenario.env_of Scenario.fetch_0106 Scenario.dir_corrupt in
  BulkNSEDownloader._get_latest_date_in_csv env "ABC" Scenario.cache_0105
    = (Ok (Some (Day (Scenario.day 5))),
       add_logs [(WARNING, ErrorReading "nse_data/ABC/2023.csv"
                             "Error tokenizing data")]
         Scenario.cache_0105).
Proof. vm_compute. reflexivity. Qed.

(** C6, at a directory whose only file has rows but no time stamp in its
    [mTIMESTAMP] column.  The column's maximum is [NaT], [NaT.date()] is
    [NaT] and no exception is raised for the handler to catch: the method
    returns [NaT], neither [None] nor a day, without a warning.  The
    caller then fails on the comparison of line 114 and the symbol is
    reported as failed; nothing is fetched. *)
Theorem blank_timestamps_make_latest_date_NaT :
  let env := Scenario.env_of Scenario.fetch_0106 Scenario.dir_blank in
  let r := BulkNSEDownloader._get_latest_date_in_csv env "ABC"
             Scenario.no_cache in
  let task := BulkNSEDownloader._update_single_symbol env "ABC"
                Scenario.no_cache in
  r = (Ok (Some NaTDate), Scenario.no_cache) ∧
  task.1 = Ok (Some (mkOutcome false 0
                       (Some "Cannot compare NaT with datetime.date object"))) ∧
  requests task.2 = [] ∧
  verdict_of task.1 = IsFailed.
Proof. vm_compute. done. Qed.

(** Lines 113-115 of [_update_single_symbol], were the directory lookup
    to hand back a latest day that is yesterday or later: the outcome is
    [updated = False] with no error, no request is sent and the files are
    left as they are. *)
Lemma up_to_date_symbol_is_not_fetched env symbol w latest :
  (BulkNSEDownloader._get_latest_date_in_csv env symbol w).1
    = Ok (Some (Day latest)) →
  toordinal (env_now env) - 1 ≤ latest →
  let r := BulkNSEDownloader._update_single_symbol env symbol w in
  r.1 = Ok (Some (mkOutcome false 0 None)) ∧
  requests r.2 = requests w ∧
  files r.2 = files w ∧
  verdict_of r.1 = IsUpToDate.
Proof.
  intros Hl Hle r. subst r.
  destruct (BulkNSEDownloader._get_latest_date_in_csv env symbol w)
    as [r0 w1] eqn:E.
  simpl in Hl. subst r0.
  rewrite (update_single_symbol_up_to_date _ _ _ _ _ E Hle). simpl.
  destruct (get_latest_date_in_csv_frame env symbol w) as [Hf Hr].
  rewrite E in Hf, Hr. done.
Qed.

Example up_to_date_symbol_is_not_fetched_at_0106 :
  let env := Scenario.env_on 6 Scenario.fetch_0106 Scenario.dir_0105 in
  let r := BulkNSEDownloader._update_single_symbol env "ABC"
             Scenario.cache_0105 in
  r.1 = Ok (Some (mkOutcome false 0 None)) ∧
  requests r.2 = requests Scenario.cache_0105 ∧
  files r.2 = files Scenario.cache_0105 ∧
  verdict_of r.1 = IsUpToDate.
Proof.
  intros env.
  apply (up_to_date_symbol_is_not_fetched env "ABC" Scenario.cache_0105
           (Scenario.day 5)).
  - vm_compute. reflexivity.
  - vm_compute. discriminate.
Defined.

Lemma update_single_symbol_no_cache env symbol w w1 :
  BulkNSEDownloader._get_latest_date_in_csv env symbol w = (Ok None, w1) →
  requests (BulkNSEDownloader._update_single_symbol env symbol w).2 =
  requests (NSEDataDownloader.download_symbol_data env symbol None None
              (add_log (INFO, NoExistingData symbol) w1)).2.
Proof.
  intros E. unfold BulkNSEDownloader._update_single_symbol, DataFrame_bool.
  munfold. rewrite E. simpl.
  destruct (NSEDataDownloader.download_symbol_data _ _ _ _ _) as [[data|e] w2];
    done.
Qed.

(** C5, as the code has it.  For a symbol without a table,
    [download_symbol_data] (which [_update_single_symbol] calls when it
    finds no cached date) sends one request: from the symbol's listing
    date when the source reports one, else from the fallback 2000-01-01,
    to TODAY. *)
Theorem download_range_without_cache env symbol w :
  files w !! NSEDataDownloader.get_csv_file_path env symbol = None →
  let start_date := default (_ymd2ord 2000 1 1) (env_listing_date env symbol) in
  let today := toordinal (env_now env) in
  requests (NSEDataDownloader.download_symbol_data env symbol None None w).2
    = requests w ++ [(symbol, start_date, today)] ∧
  ((BulkNSEDownloader._get_latest_date_in_csv env symbol w).1 = Ok None →
   requests (BulkNSEDownloader._update_single_symbol env symbol w).2
     = requests w ++ [(symbol, start_date, today)]).
Proof.
  intros Hfile start_date today. split.
  - apply (download_symbol_data_no_file env symbol w Hfile).
  - intros Hl.
    destruct (BulkNSEDownloader._get_latest_date_in_csv env symbol w)
      as [r0 w1] eqn:E.
    simpl in Hl. subst r0.
    rewrite (update_single_symbol_no_cache _ _ _ _ E).
    destruct (get_latest_date_in_csv_frame env symbol w) as [Hf Hr].
    rewrite E in Hf, Hr. simpl in Hf, Hr.
    pose proof (download_symbol_data_no_file env symbol
                  (add_log (INFO, NoExistingData symbol) w1)) as Hd.
    simpl in Hd. rewrite Hf, Hr in Hd. apply (Hd Hfile).
Qed.

Lemma download_range_without_cache_witness :
  let env := Scenario.env_of Scenario.fetch_0106 Scenario.dir_empty in
  requests (NSEDataDownloader.download_symbol_data env "ABC" None None
              Scenario.no_cache).2
    = [("ABC", _ymd2ord 2000 1 1, Scenario.day 8)] ∧
  requests (BulkNSEDownloader._update_single_symbol env "ABC"
              Scenario.no_cache).2
    = [("ABC", _ymd2ord 2000 1 1, Scenario.day 8)].
Proof.
  intros env.
  destruct (download_range_without_cache env "ABC" Scenario.no_cache eq_refl)
    as [H1 H2].
  split; [exact H1|]. apply H2. vm_compute. reflexivity.
Defined.

(** C5 as stated fails: on 2024-01-08 the request for a symbol without
    cache ends on 2024-01-08, not on the 7th, and for a listed symbol it
    starts on the listing date, not on the fallback date. *)
Lemma download_range_ends_today :
  let env := Scenario.env_of Scenario.fetch_0106 Scenario.dir_empty in
  let env' := Scenario.env_listed Scenario.fetch_0106 Scenario.dir_empty in
  let yesterday := toordinal (env_now env) - 1 in
  requests (BulkNSEDownloader._update_single_symbol env "ABC"
              Scenario.no_cache).2
    = [("ABC", _ymd2ord 2000 1 1, Scenario.day 8)] ∧
  requests (BulkNSEDownloader._update_single_symbol env' "ABC"
              Scenario.no_cache).2
    = [("ABC", _ymd2ord 2010 5 3, Scenario.day 8)] ∧
  ¬ (requests (BulkNSEDownloader._update_single_symbol env "ABC"
                 Scenario.no_cache).2
       = [("ABC", _ymd2ord 2000 1 1, yesterday)]) ∧
  ¬ (requests (BulkNSEDownloader._update_single_symbol env' "ABC"
                 Scenario.no_cache).2
       = [("ABC", _ymd2ord 2000 1 1, yesterday)]).
Proof.
  intros env env' yesterday.
  split; [vm_compute; reflexivity|]. split; [vm_compute; reflexivity|].
  split; vm_compute; intros [=].
Qed.

Lemma sorted_insert_Permutation s l : insert_sorted s l ≡ₚ s :: l.
Proof.
  induction l as [|x rest IH]; simpl; [done|].
  destruct (String.ltb s x); [done|]. rewrite IH. apply Permutation_swap.
Qed.

Lemma sorted_Permutation l : sorted l ≡ₚ l.
Proof.
  induction l as [|x rest IH]; simpl; [done|].
  by rewrite sorted_insert_Permutation, IH.
Qed.

(** C7. For distinct symbols, every future being yielded once,
    [update_all_symbols] returns three lists such that each symbol is in
    one of them, no symbol is in two of them and none occurs twice; the
    report written lists the same symbols under the same three headings. *)
Theorem update_all_symbols_partition env symbols w :
  NoDup symbols →
  env_as_completed env symbols ≡ₚ symbols →
  ∃ u f n w',
    BulkNSEDownloader.update_all_symbols env (Some symbols) w
      = (Ok (u, f, n), w') ∧
    (∀ s, s ∈ symbols ↔ s ∈ u ∨ s ∈ f ∨ s ∈ n) ∧
    (∀ s, ¬ (s ∈ u ∧ s ∈ f)) ∧
    (∀ s, ¬ (s ∈ u ∧ s ∈ n)) ∧
    (∀ s, ¬ (s ∈ f ∧ s ∈ n)) ∧
    NoDup u ∧ NoDup f ∧ NoDup n ∧
    (∃ rep, update_report w' = Some rep ∧
            report_updated rep ≡ₚ u ∧ report_failed rep ≡ₚ f ∧
            report_no_update rep ≡ₚ n).
Proof.
  intros Hnd Hsched.
  destruct (update_all_symbols_spec env symbols w)
    as (u & f & n & w' & Hrun & Hperm & Hrep).
  exists u, f, n, w'. split; [done|].
  rewrite Hsched in Hperm.
  assert (NoDup (u ++ f ++ n)) as Hnd' by (by rewrite Hperm).
  apply NoDup_app in Hnd' as (Hu & Huf & Hfn).
  apply NoDup_app in Hfn as (Hf & Hfn & Hn).
  split; [|split; [|split; [|split]]].
  - intros s. rewrite <- Hperm, !elem_of_app. tauto.
  - intros s [H1 H2]. apply (Huf s H1). apply elem_of_app. by left.
  - intros s [H1 H2]. apply (Huf s H1). apply elem_of_app. by right.
  - intros s [H1 H2]. by apply (Hfn s H1).
  - split; [done|]. split; [done|]. split; [done|].
    eexists. split; [exact Hrep|]. simpl.
    split; [|split]; apply sorted_Permutation.
Qed.

Lemma update_all_symbols_partition_witness :
  let env := Scenario.env_of Scenario.fetch_memory_error Scenario.dir_mixed in
  ∃ u f n w',
    BulkNSEDownloader.update_all_symbols env (Some ["XYZ"; "ABC"])
      Scenario.no_cache = (Ok (u, f, n), w') ∧
    (∀ s, s ∈ ["XYZ"; "ABC"] ↔ s ∈ u ∨ s ∈ f ∨ s ∈ n) ∧
    (∀ s, ¬ (s ∈ u ∧ s ∈ f)) ∧
    (∀ s, ¬ (s ∈ u ∧ s ∈ n)) ∧
    (∀ s, ¬ (s ∈ f ∧ s ∈ n)) ∧
    NoDup u ∧ NoDup f ∧ NoDup n ∧
    (∃ rep, update_report w' = Some rep ∧
            report_updated rep ≡ₚ u ∧ report_failed rep ≡ₚ f ∧
            report_no_update rep ≡ₚ n).
Proof.
  intros env.
  apply (update_all_symbols_partition env ["XYZ"; "ABC"] Scenario.no_cache).
  - apply (bool_decide_unpack _). vm_compute. exact I.
  - reflexivity.
Defined.

(** No exception leaves [_update_single_symbol]. *)
Lemma update_single_symbol_never_raises env symbol w :
  ∃ r, (BulkNSEDownloader._update_single_symbol env symbol w).1 = Ok r.
Proof.
  destruct (update_single_symbol_not_updated env symbol w) as (o & -> & _).
  eauto.
Qed.

(** A caught exception is reported as failed exactly when its message
    is not empty. *)
Lemma verdict_of_error msg :
  verdict_of (Ok (Some (mkOutcome false 0 (Some msg)))) =
  if String.eqb msg "" then IsUpToDate else IsFailed.
Proof. unfold verdict_of, truthy. simpl. by destruct (String.eqb msg ""). Qed.

(** The scenario of the specification on [update_symbol_data] called with
    the symbol alone: one request for 2024-01-06..07, one new row, six
    rows in the table. *)
Example update_symbol_data_scenario :
  let env := Scenario.env_of Scenario.fetch_0106 Scenario.dir_0105 in
  let r := NSEDataDownloader.update_symbol_data env "ABC" Scenario.cache_0105 in
  r.1 = Ok (NewData [Scenario.row 6 "new"]) ∧
  requests r.2 = [("ABC", Scenario.day 6, Scenario.day 7)] ∧
  files r.2 !! "nse_data/ABC.csv" =
    Some (Table [Scenario.row 1 "a"; Scenario.row 2 "b"; Scenario.row 3 "c";
                 Scenario.row 4 "d"; Scenario.row 5 "e"; Scenario.row 6 "new"]).
Proof. vm_compute. done. Qed.

(** C2, at the scenario of the specification (cache 2024-01-01..05,
    today 2024-01-08, one row fetched for 2024-01-06).
    [_update_single_symbol] passes three arguments to
    [update_symbol_data], which takes one: the [TypeError] is caught, the
    outcome is [updated = False] with that error, nothing is fetched or
    written, and the batch reports the symbol as failed.  With the symbol
    directory as the class stands, the outcome is the [AttributeError]. *)
Theorem scenario_update_is_reported_failed :
  let env := Scenario.env_of Scenario.fetch_0106 Scenario.dir_0105 in
  let env0 := Scenario.env_of Scenario.fetch_0106 no_symbol_directory in
  let r := BulkNSEDownloader._update_single_symbol env "ABC"
             Scenario.cache_0105 in
  r.1 = Ok (Some (mkOutcome false 0
    (Some "NSEDataDownloader.update_symbol_data() takes 2 positional arguments but 4 were given"))) ∧
  requests r.2 = [] ∧
  files r.2 = files Scenario.cache_0105 ∧
  (BulkNSEDownloader.update_all_symbols env (Some ["ABC"])
     Scenario.cache_0105).1 = Ok ([], ["ABC"], []) ∧
  (BulkNSEDownloader._update_single_symbol env0 "ABC" Scenario.cache_0105).1
    = Ok (Some (mkOutcome false 0
        (Some "'NSEDataDownloader' object has no attribute 'get_symbol_directory'"))).
Proof. vm_compute. done. Qed.

(** Were the directory lookup to work, a fetch raising an exception whose
    message is empty would be caught, but its symbol would be listed as
    already up to date: [if result["error"]] takes the empty message for
    no error. *)
Example empty_message_exception_is_reported_up_to_date :
  let env := Scenario.env_of Scenario.fetch_memory_error Scenario.dir_mixed in
  let task := BulkNSEDownloader._update_single_symbol env "ABC"
                Scenario.no_cache in
  let run := BulkNSEDownloader.update_all_symbols env (Some ["ABC"; "XYZ"])
               Scenario.no_cache in
  requests task.2 = [("ABC", _ymd2ord 2000 1 1, Scenario.day 8)] ∧
  task.1 = Ok (Some (mkOutcome false 0 (Some ""))) ∧
  run.1 = Ok ([], [], ["ABC"; "XYZ"]) ∧
  log run.2 =
    [(INFO, StartingUpdate 2);
     (INFO, NoExistingData "ABC");
     (WARNING, UsingFallbackStartYear "ABC");
     (WARNING, UsingStartEnd (_ymd2ord 2000 1 1) (Scenario.day 8) "ABC");
     (INFO, SymbolAlreadyUpToDate "ABC");
     (INFO, SymbolAlreadyUpToDate "XYZ");
     (INFO, UpdateReportSaved "nse_data/update_report.txt")].
Proof. vm_compute. done. Qed.

(** ** The batch, with the class as it stands *)

Lemma update_single_symbol_as_it_stands env symbol w :
  class_as_it_stands env →
  BulkNSEDownloader._update_single_symbol env symbol w
    = (Ok (Some (mkOutcome false 0 (Some missing_method_message))), w).
Proof.
  intros Hclass.
  unfold BulkNSEDownloader._update_single_symbol,
    BulkNSEDownloader._get_latest_date_in_csv.
  munfold. by rewrite Hclass.
Qed.

Lemma collect_error symbol msg u f n w :
  msg ≠ "" →
  BulkNSEDownloader.collect symbol
    (Ok (Some (mkOutcome false 0 (Some msg)))) (u, f, n) w
    = (Ok (u, f ++ [symbol], n), add_log (ERROR, FailedToUpdate symbol msg) w).
Proof.
  intros Hmsg. unfold BulkNSEDownloader.collect. munfold. simpl.
  destruct (String.eqb_spec msg ""); done.
Qed.

Lemma as_completed_loop_as_it_stands env completed u f n w :
  class_as_it_stands env →
  BulkNSEDownloader.as_completed_loop env completed (u, f, n) w
    = (Ok (u, f ++ completed, n),
       add_logs ((λ s, (ERROR, FailedToUpdate s missing_method_message))
                   <$> completed) w).
Proof.
  intros Hclass. revert f w.
  induction completed as [|symbol rest IH]; intros f w.
  - simpl. by rewrite app_nil_r, add_logs_nil.
  - cbn [BulkNSEDownloader.as_completed_loop].
    unfold mbind at 1, M_bind at 1, BulkNSEDownloader.run_future.
    rewrite update_single_symbol_as_it_stands by done. cbv beta iota.
    unfold mbind at 1, M_bind at 1.
    rewrite collect_error by done. cbv beta iota.
    rewrite IH, add_logs_cons. by rewrite <- app_assoc.
Qed.

(** C3. No exception leaves [_update_single_symbol] or the batch, and
    every symbol whose future is yielded is in the report; an outcome that
    carries the message of a caught exception makes its symbol a failed
    entry, logged with the message.  With the class as it stands, the
    update of every symbol raises (the directory lookup is an
    [AttributeError]): each exception is caught at the task boundary and
    turned into an outcome with its message, every symbol of the batch is
    still processed and reported as failed with that message, and the
    files and the requests are untouched. *)
Theorem task_exceptions_are_reported_failed env :
  (∀ symbol w, ∃ o w',
     BulkNSEDownloader._update_single_symbol env symbol w = (Ok (Some o), w')) ∧
  (∀ symbols w, ∃ u f n w',
     BulkNSEDownloader.update_all_symbols env (Some symbols) w
       = (Ok (u, f, n), w') ∧
     u ++ f ++ n ≡ₚ env_as_completed env symbols) ∧
  (∀ symbol msg u f n w,
     msg ≠ "" →
     BulkNSEDownloader.collect symbol
       (Ok (Some (mkOutcome false 0 (Some msg)))) (u, f, n) w
       = (Ok (u, f ++ [symbol], n),
          add_log (ERROR, FailedToUpdate symbol msg) w)) ∧
  (class_as_it_stands env →
   (∀ symbol w,
      BulkNSEDownloader._update_single_symbol env symbol w
        = (Ok (Some (mkOutcome false 0 (Some missing_method_message))), w)) ∧
   (∀ symbols w, ∃ w',
      BulkNSEDownloader.update_all_symbols env (Some symbols) w
        = (Ok ([], env_as_completed env symbols, []), w') ∧
      (∀ s, s ∈ env_as_completed env symbols →
            (ERROR, FailedToUpdate s missing_method_message) ∈ log w') ∧
      files w' = files w ∧ requests w' = requests w)).
Proof.
  split; [|split; [|split]].
  - intros symbol w.
    destruct (update_single_symbol_not_updated env symbol w) as (o & Ho & _).
    destruct (BulkNSEDownloader._update_single_symbol env symbol w) as [r w'].
    simpl in Ho. subst r. eauto.
  - intros symbols w.
    destruct (update_all_symbols_spec env symbols w)
      as (u & f & n & w' & Hrun & Hperm & _).
    eauto 10.
  - intros. by apply collect_error.
  - intros Hclass. split.
    + intros. by apply update_single_symbol_as_it_stands.
    + intros symbols w.
      unfold BulkNSEDownloader.update_all_symbols.
      unfold mbind at 1, M_bind at 1, mret at 1, M_ret at 1.
      unfold mbind at 1, M_bind at 1, logger at 1.
      unfold mbind at 1, M_bind at 1.
      rewrite as_completed_loop_as_it_stands by done.
      unfold BulkNSEDownloader._generate_update_report. munfold. simpl.
      eexists. split; [reflexivity|]. simpl. split; [|done].
      intros s Hs. rewrite !elem_of_app. left. right.
      apply list_elem_of_fmap. by exists s.
Qed.

Lemma task_exceptions_are_reported_failed_witness :
  let env := Scenario.env_of Scenario.fetch_memory_error no_symbol_directory in
  (∀ symbol w,
     BulkNSEDownloader._update_single_symbol env symbol w
       = (Ok (Some (mkOutcome false 0 (Some missing_method_message))), w)) ∧
  BulkNSEDownloader.collect "ABC"
    (Ok (Some (mkOutcome false 0 (Some missing_method_message)))) ([], [], [])
    Scenario.no_cache
    = (Ok ([], ["ABC"], []),
       add_log (ERROR, FailedToUpdate "ABC" missing_method_message)
         Scenario.no_cache).
Proof.
  intros env.
  destruct (task_exceptions_are_reported_failed env) as (_ & _ & H3 & H4).
  split.
  - apply H4. intros symbol. reflexivity.
  - apply (H3 "ABC" missing_method_message [] [] []). vm_compute. discriminate.
Defined.

(** C4, at a symbol whose table is current (cached up to 2024-01-05, on
    2024-01-06), with the class as it stands.  The directory lookup of
    line 141 raises before the comparison of lines 113-115 is reached: the
    outcome carries the error, and the symbol is reported as failed, not as
    already up to date. *)
Theorem current_cache_is_reported_failed :
  let env := Scenario.env_on 6 Scenario.fetch_0106 no_symbol_directory in
  let task := BulkNSEDownloader._update_single_symbol env "ABC"
                Scenario.cache_0105 in
  task.1 = Ok (Some (mkOutcome false 0
    (Some "'NSEDataDownloader' object has no attribute 'get_symbol_directory'"))) ∧
  verdict_of task.1 = IsFailed ∧
  (BulkNSEDownloader.update_all_symbols env (Some ["ABC"])
     Scenario.cache_0105).1 = Ok ([], ["ABC"], []).
Proof. vm_compute. done. Qed.

(** * Further properties of the downloader *)

(** ** Complete tables and full downloads *)


Opaque toordinal _ymd2ord.
Transparent toordinal _ymd2ord.







(** ** Incremental updates *)

Opaque NSEDataDownloader.update_start_date toordinal year_of datetime
  timedelta_days _ymd2ord.


Transparent NSEDataDownloader.update_start_date toordinal year_of datetime
  timedelta_days _ymd2ord.
















(** ** Appending to a sorted table *)






(** ** The yearly requests *)







(** ** The bulk download and the reports *)
















